(** * tg_ai_bot: the question relay and its notification log

    A shallow embedding of [src/ask_module.py] (the conversation flow that
    collects a question and sends it to the owner) and of
    [src/request_module.py] (the notification manager with its JSON log),
    followed by the properties of the two modules.

    Conventions of the embedding.
    - A Python [str] is the list of its code points ([str := list N]); the
      literals of the source are decoded from UTF-8 once, by [u].
    - A [dict] read with [.get] is a [gmap]; the JSON document of the log file
      is the record [LogData], and a file whose content makes [json.loads] or
      the accesses to [data["notifications"]] raise is [Corrupt].
    - Handlers are computations of the monad [Py]: they thread the [World]
      (conversation context, log file, clock, trace of outgoing calls) and
      may raise; [try_] is Python's [try ... except Exception].
    - [str.lower] and [int(...)] are builtins of the interpreter and are
      taken as the interface [PyBuiltins].
    - Calls of the [logging] module are diagnostics and are left out; the
      replies to the user ([message.answer], [edit_text], [callback.answer])
      are recorded in the trace and do not raise. *)

From Stdlib Require Import String Ascii.
From stdpp Require Import gmap list fin_maps.

Set Default Proof Using "Type".

(* ===================================================================== *)
(** ** Python strings *)
(* ===================================================================== *)

Abbreviation str := (list N).

Fixpoint utf8_decode (bs : list N) : str :=
  match bs with
  | [] => []
  | b1 :: r1 =>
    if (b1 <? 128)%N then b1 :: utf8_decode r1
    else match r1 with
    | [] => []
    | b2 :: r2 =>
      if (b1 <? 224)%N then ((b1 - 192) * 64 + (b2 - 128))%N :: utf8_decode r2
      else match r2 with
      | [] => []
      | b3 :: r3 =>
        if (b1 <? 240)%N
        then ((b1 - 224) * 4096 + (b2 - 128) * 64 + (b3 - 128))%N :: utf8_decode r3
        else match r3 with
        | [] => []
        | b4 :: r4 =>
          ((b1 - 240) * 262144 + (b2 - 128) * 4096 + (b3 - 128) * 64 + (b4 - 128))%N
            :: utf8_decode r4
        end
      end
    end
  end.

(** [u "..."] is the Python string written by the literal. *)
Definition u (s : string) : str :=
  utf8_decode (N_of_ascii <$> list_ascii_of_string s).
Arguments u s%_string.

(** [str.isspace] on one code point: the table of CPython's
    [_PyUnicode_IsWhitespace]. *)
Definition is_space (c : N) : bool :=
  ((9 <=? c) && (c <=? 13) || (28 <=? c) && (c <=? 32)
   || (c =? 133) || (c =? 160) || (c =? 5760)
   || (8192 <=? c) && (c <=? 8202)
   || (c =? 8232) || (c =? 8233) || (c =? 8239) || (c =? 8287) || (c =? 12288))%N.

Fixpoint lstrip (s : str) : str :=
  match s with
  | c :: s' => if is_space c then lstrip s' else s
  | [] => []
  end.

Definition rstrip (s : str) : str := reverse (lstrip (reverse s)).

(** [s.strip()] *)
Definition strip (s : str) : str := rstrip (lstrip s).

(** [s.startswith(p)] *)
Fixpoint startswith (s p : str) {struct p} : bool :=
  match p, s with
  | [], _ => true
  | a :: p', b :: s' => (a =? b)%N && startswith s' p'
  | _ :: _, [] => false
  end.

(** [s.replace(old, "", 1)] for a non-empty [old]: the leftmost occurrence of
    [old] is removed, and [s] is returned as it is when there is none. *)
Fixpoint remove_first (old s : str) : str :=
  if startswith s old then drop (length old) s
  else match s with
       | [] => []
       | c :: s' => c :: remove_first old s'
       end.

(** [x or d] on an optional string: [None] and [""] are falsy. *)
Definition truthy (o : option str) : bool :=
  match o with
  | Some (_ :: _) => true
  | _ => false
  end.

Definition or_else (o : option str) (d : str) : str :=
  match o with
  | Some (c :: s) => c :: s
  | _ => d
  end.

(** The values that occur in the dictionaries of the two modules. *)
Inductive pyval :=
  | VNone
  | VInt (z : Z)
  | VStr (s : str).

Definition digit (d : N) : N := (48 + d)%N.

Fixpoint digits_fuel (fuel : nat) (n : N) (acc : str) : str :=
  match fuel with
  | O => acc
  | S fuel' =>
    let acc' := digit (n mod 10) :: acc in
    if (n / 10 =? 0)%N then acc' else digits_fuel fuel' (n / 10)%N acc'
  end.

(** [str(n)] for a natural number. *)
Definition decimal (n : N) : str :=
  digits_fuel (S (N.to_nat (N.log2 n))) n [].

(** [str(z)] for an integer. *)
Definition str_of_int (z : Z) : str :=
  match z with
  | Zneg p => 45%N :: decimal (Npos p)
  | _ => decimal (Z.to_N z)
  end.

(** [str(v)], as an f-string renders [{v}]. *)
Definition py_str (v : pyval) : str :=
  match v with
  | VNone => u "None"
  | VInt z => str_of_int z
  | VStr s => s
  end.

(** [n] written with at least [w] digits, as [%02d] and [%04d] do. *)
Definition zfill (w : nat) (n : N) : str :=
  let d := decimal n in replicate (w - length d) (digit 0) ++ d.

(** The builtins of the interpreter that the modules call and that are not
    re-implemented here. [py_int s] is [None] where [int(s)] raises. *)
Class PyBuiltins := {
  py_lower : str -> str;
  py_int : str -> option Z;
}.

(* ===================================================================== *)
(** ** Time *)
(* ===================================================================== *)

(** A [datetime.datetime] value. *)
Record datetime := {
  year : N; month : N; day : N;
  hour : N; minute : N; second : N; microsecond : N;
}.


(** [t.strftime("%Y-%m-%d %H:%M:%S")]; the C library writes [%Y] without
    padding. *)
Definition strftime (t : datetime) : str :=
  decimal (year t) ++ u "-" ++ zfill 2 (month t) ++ u "-" ++ zfill 2 (day t)
  ++ u " " ++ zfill 2 (hour t) ++ u ":" ++ zfill 2 (minute t)
  ++ u ":" ++ zfill 2 (second t).

(** [t.isoformat()] *)
Definition isoformat (t : datetime) : str :=
  zfill 4 (year t) ++ u "-" ++ zfill 2 (month t) ++ u "-" ++ zfill 2 (day t)
  ++ u "T" ++ zfill 2 (hour t) ++ u ":" ++ zfill 2 (minute t)
  ++ u ":" ++ zfill 2 (second t)
  ++ (if (microsecond t =? 0)%N then [] else u "." ++ zfill 6 (microsecond t)).

Definition is_digit (c : N) : bool := ((48 <=? c) && (c <=? 57))%N.


(* ===================================================================== *)
(** ** The world the handlers run in *)
(* ===================================================================== *)

(** [AskStates]; the idle conversation has no state ([None]). *)
Inductive AskStates :=
  | waiting_for_question
  | confirming_question.

#[global] Instance AskStates_eq_dec : EqDecision AskStates.
Proof. solve_decision. Defined.

#[global] Instance pyval_eq_dec : EqDecision pyval.
Proof. solve_decision. Defined.

(** One record of the log, with the keys [_log_notification] writes and the
    key [reviewed_at] that [mark_notification_as_reviewed] adds. *)
Record Notification := {
  n_id : Z;
  n_timestamp : str;
  n_type : str;
  n_user_info : gmap str pyval;
  n_message : str;
  n_status : str;
  n_reviewed_at : option str;
}.

Record Settings := {
  telegram_enabled : bool;
  email_enabled : bool;
  created_at : str;
}.

(** The JSON document of [notifications_log.json]. *)
Record LogData := {
  notifications : list Notification;
  settings : option Settings;
}.

(** The log file: missing, holding a document, or holding (or guarded by)
    something on which reading the document raises; [e] is [str] of the
    exception. *)
Inductive file_state :=
  | Absent
  | Corrupt (e : str)
  | Stored (d : LogData).

(** An inline keyboard: rows of buttons (text, callback_data). *)
Abbreviation keyboard := (list (list (str * str))).

(** The calls that leave the process, in the order they are made. *)
Inductive Event :=
  | Answer (text : str) (parse_mode : option str) (reply_markup : option keyboard)
  | EditText (text : str) (parse_mode : option str)
  | CallbackAnswer
  | SendMessage (chat_id : pyval) (text : str) (parse_mode : str)
  | WriteText (d : LogData).

Record World := {
  fsm_state : option AskStates;      (* FSMContext: the state *)
  fsm_data : gmap str str;           (* FSMContext: the data *)
  log_file : file_state;             (* notifications_log.json *)
  write_error : option str;          (* [Some e]: writing raises [e], file as before *)
  clock : nat -> datetime;           (* what the n-th [datetime.now()] returns *)
  ticks : nat;                       (* number of clock reads so far *)
  trace : list Event;
}.

Definition with_fsm (st : option AskStates) (d : gmap str str) (w : World) : World :=
  {| fsm_state := st; fsm_data := d; log_file := log_file w;
     write_error := write_error w; clock := clock w; ticks := ticks w;
     trace := trace w |}.

Definition with_file (f : file_state) (w : World) : World :=
  {| fsm_state := fsm_state w; fsm_data := fsm_data w; log_file := f;
     write_error := write_error w; clock := clock w; ticks := ticks w;
     trace := trace w |}.

Definition with_tick (w : World) : World :=
  {| fsm_state := fsm_state w; fsm_data := fsm_data w; log_file := log_file w;
     write_error := write_error w; clock := clock w; ticks := S (ticks w);
     trace := trace w |}.

Definition with_event (e : Event) (w : World) : World :=
  {| fsm_state := fsm_state w; fsm_data := fsm_data w; log_file := log_file w;
     write_error := write_error w; clock := clock w; ticks := ticks w;
     trace := trace w ++ [e] |}.

(** *** The monad of handlers *)

Inductive outcome (A : Type) :=
  | Ret (a : A)
  | Raise (e : str).
Arguments Ret {A} a.
Arguments Raise {A} e.

Definition Py (A : Type) : Type := World -> outcome A * World.

#[global] Instance Py_ret : MRet Py := fun A a w => (Ret a, w).

#[global] Instance Py_bind : MBind Py := fun A B k m w =>
  match m w with
  | (Ret a, w') => k a w'
  | (Raise e, w') => (Raise e, w')
  end.

Definition raise {A} (e : str) : Py A := fun w => (Raise e, w).

(** [try: m  except Exception as e: h (str e)] *)
Definition try_ {A} (m : Py A) (h : str -> Py A) : Py A := fun w =>
  match m w with
  | (Ret a, w') => (Ret a, w')
  | (Raise e, w') => h e w'
  end.

Definition modify (f : World -> World) : Py unit := fun w => (Ret tt, f w).
Definition gets {A} (f : World -> A) : Py A := fun w => (Ret (f w), w).

(** The world a computation leaves, and what it returns. *)
Definition exec {A} (m : Py A) (w : World) : World := (m w).2.
Definition result {A} (m : Py A) (w : World) : outcome A := (m w).1.

(** [datetime.now()] *)
Definition datetime_now : Py datetime := fun w => (Ret (clock w (ticks w)), with_tick w).

(** *** FSMContext *)

Definition get_state : Py (option AskStates) := gets fsm_state.
Definition get_data : Py (gmap str str) := gets fsm_data.
Definition set_state (st : option AskStates) : Py unit :=
  modify (fun w => with_fsm st (fsm_data w) w).
Definition update_data (k v : str) : Py unit :=
  modify (fun w => with_fsm (fsm_state w) (<[k:=v]> (fsm_data w)) w).
(** [state.clear()]: no state and no data. *)
Definition clear : Py unit := modify (with_fsm None ∅).

(** *** The transport *)

(** A bot: [send_result chat_id text] is [None] when [send_message] delivers
    and [Some e] when it raises an exception with [str(e) = e]. *)
Record Bot := { send_result : pyval -> str -> option str }.

Definition answer (text : str) (parse_mode : option str) (markup : option keyboard) : Py unit :=
  modify (with_event (Answer text parse_mode markup)).
Definition edit_text (text : str) (parse_mode : option str) : Py unit :=
  modify (with_event (EditText text parse_mode)).
Definition callback_answer : Py unit := modify (with_event CallbackAnswer).

(** [await bot.send_message(chat_id=..., text=..., parse_mode=...)] *)
Definition send_message (b : Bot) (chat_id : pyval) (text parse_mode : str) : Py unit :=
  modify (with_event (SendMessage chat_id text parse_mode)) ;;
  match send_result b chat_id text with
  | None => mret tt
  | Some e => raise e
  end.

(** *** The log file *)

(** [self.notifications_log_file.exists()] *)
Definition file_exists : Py bool :=
  gets (fun w => match log_file w with Absent => false | _ => true end).

(** [json.loads(self.notifications_log_file.read_text())], with the
    document's ["notifications"] at hand. *)
Definition read_json : Py LogData := fun w =>
  match log_file w with
  | Stored d => (Ret d, w)
  | Corrupt e => (Raise e, w)
  | Absent => (Raise (u "[Errno 2] No such file or directory: 'notifications_log.json'"), w)
  end.

(** [self.notifications_log_file.write_text(json.dumps(data, ...))] *)
Definition write_json (d : LogData) : Py unit := fun w =>
  match write_error w with
  | Some e => (Raise e, w)
  | None => (Ret tt, with_event (WriteText d) (with_file (Stored d) w))
  end.

(* ===================================================================== *)
(** ** ask_module.py *)
(* ===================================================================== *)

Definition nl : str := [10%N].
Definition HTML : str := u "HTML".

(** [aiogram.types.User], with the attributes the module reads. *)
Record User := {
  user_id : Z;
  first_name : option str;
  last_name : option str;
  username : option str;
}.

(** [aiogram.types.Message]; [msg_text] is [None] for a message without
    text. *)
Record Message := {
  msg_text : option str;
  msg_from_user : User;
}.


(** The fields of [self]. *)
Record AskModule := {
  bot : Bot;
  owner_id : option str;
}.

(** [self.owner_id = owner_id or os.getenv("OWNER_TELEGRAM_ID")] *)
Definition AskModule_init (b : Bot) (owner getenv_owner : option str) : AskModule :=
  {| bot := b; owner_id := if truthy owner then owner else getenv_owner |}.

Definition QUICK_PREFIX : str := u "вопрос:".
Definition CANCEL_KEYWORD : str := u "/cancel".

(** The texts sent to the user. *)
Definition TEXT_UNAVAILABLE : str :=
  u "❌ Функция связи с владельцем временно недоступна.".
Definition TEXT_UNAVAILABLE_ASK : str :=
  TEXT_UNAVAILABLE ++ nl ++ u "Владелец не указал свои контактные данные.".
Definition TEXT_PROMPT : str :=
  u "📝 <b>Вопрос владельцу</b>" ++ nl ++ nl
  ++ u "Напишите ваш вопрос или сообщение, которое я передам Дмитрию." ++ nl ++ nl
  ++ u "Для отмены используйте команду /cancel".
Definition TEXT_USAGE : str :=
  u "Пожалуйста, напишите вопрос после 'вопрос:'" ++ nl
  ++ u "Пример: <i>вопрос: Как с вами можно сотрудничать?</i>".
Definition TEXT_QUICK_SENT : str :=
  u "✅ <b>Ваш вопрос отправлен Дмитрию!</b>" ++ nl ++ nl
  ++ u "Я уведомил его о вашем сообщении. Он ответит вам при первой возможности.".
Definition TEXT_QUICK_ERROR : str :=
  u "❌ Не удалось отправить вопрос. Пожалуйста, попробуйте позже.".
Definition TEXT_NOTHING_TO_CANCEL : str := u "Нет активных действий для отмены.".
Definition TEXT_CANCELLED : str := u "❌ Действие отменено.".



Definition NOT_GIVEN : str := u "Не указано".
Definition NOT_GIVEN_USERNAME : str := u "Не указан".

(** The f-string both sending handlers build; [header] is the first line
    between the icon and the blank line. *)
Definition owner_message (header : str) (user : User) (question timestamp : str) : str :=
  u "❓ <b>" ++ header ++ u "</b>" ++ nl ++ nl
  ++ u "👤 <b>Пользователь:</b>" ++ nl
  ++ u "ID: " ++ str_of_int (user_id user) ++ nl
  ++ u "Имя: " ++ or_else (first_name user) NOT_GIVEN ++ nl
  ++ u "Фамилия: " ++ or_else (last_name user) NOT_GIVEN ++ nl
  ++ u "Username: @" ++ or_else (username user) NOT_GIVEN_USERNAME ++ nl ++ nl
  ++ u "💬 <b>Сообщение:</b>" ++ nl ++ question ++ nl ++ nl
  ++ u "⏰ <b>Время:</b> " ++ timestamp.

Definition HEADER_QUICK : str := u "ВОПРОС ОТ ПОЛЬЗОВАТЕЛЯ (быстрая отправка)".

(** The body of a handler either falls through to its last statements or
    has already executed [return]. *)
Inductive flow := Continue | Returned.

Section Handlers.
Context `{PyBuiltins}.

(** [int(s)] *)
Definition int_ (s : str) : Py Z :=
  match py_int s with
  | Some z => mret z
  | None => raise (u "invalid literal for int() with base 10: '" ++ s ++ u "'")
  end.

(** [message.text.<method>]: an attribute of [None] raises. *)
Definition text_of (message : Message) : Py str :=
  match msg_text message with
  | Some t => mret t
  | None => raise (u "'NoneType' object has no attribute")
  end.

Definition cmd_ask_owner (self : AskModule) (message : Message) : Py unit :=
  if negb (truthy (owner_id self)) then
    answer TEXT_UNAVAILABLE_ASK None None
  else
    answer TEXT_PROMPT (Some HTML) None ;;
    set_state (Some waiting_for_question).



Definition handle_quick_ask (self : AskModule) (message : Message) : Py unit :=
  text ← text_of message;
  let question_text := strip (remove_first QUICK_PREFIX text) in
  if decide (question_text = []) then
    answer TEXT_USAGE (Some HTML) None
  else if negb (truthy (owner_id self)) then
    answer TEXT_UNAVAILABLE None None
  else
    try_
      (let user := msg_from_user message in
       now ← datetime_now;
       let timestamp := strftime now in
       chat ← int_ (default [] (owner_id self));
       send_message (bot self) (VInt chat)
         (owner_message HEADER_QUICK user question_text timestamp) HTML ;;
       answer TEXT_QUICK_SENT (Some HTML) None)
      (fun e => answer TEXT_QUICK_ERROR (Some HTML) None).

Definition cmd_cancel (self : AskModule) (message : Message) : Py unit :=
  current_state ← get_state;
  match current_state with
  | None => answer TEXT_NOTHING_TO_CANCEL None None
  | Some _ =>
      clear ;;
      answer TEXT_CANCELLED None None
  end.

End Handlers.

(* ===================================================================== *)
(** ** request_module.py *)
(* ===================================================================== *)

(** The fields of [self]; [self.notifications_log_file] is the file of the
    world. *)
Record NotificationManager := {
  owner_telegram_id : option str;
  owner_email : option str;
}.

(** The dictionaries [{"success": True, ...}] and
    [{"success": False, "error": str(e)}] the private methods return. *)
Inductive op_result :=
  | OpSuccess (notification_id : option Z)
  | OpFailure (error : str).

Definition success (r : op_result) : bool :=
  match r with OpSuccess _ => true | OpFailure _ => false end.

(** [r.get('error')], rendered by an f-string. *)
Definition get_error (r : op_result) : str :=
  match r with OpSuccess _ => py_str VNone | OpFailure e => e end.

(** The dictionary [send_to_owner] returns. *)
Record SendResults := {
  telegram_sent : bool;
  email_sent : bool;
  logged : bool;
  errors : list str;
}.

Definition MAX_NOTIFICATIONS : nat := 100.
Definition STATUS_PENDING : str := u "pending".
Definition STATUS_REVIEWED : str := u "reviewed".
Definition NA : str := u "N/A".
Definition LOG_ERROR : str := u "Log error: ".
Definition TELEGRAM_ERROR : str := u "Telegram error: ".
Definition DEFAULT_HEADER : str := u "📨 УВЕДОМЛЕНИЕ".

Definition notification_types : gmap str str :=
  {[ u "user_question" := u "❓ ВОПРОС ОТ ПОЛЬЗОВАТЕЛЯ";
     u "feedback" := u "📝 ОБРАТНАЯ СВЯЗЬ";
     u "urgent" := u "🚨 СРОЧНОЕ УВЕДОМЛЕНИЕ" ]}.

(** [l[-n:]] for a positive [n] *)
Definition last_n {A} (n : nat) (l : list A) : list A := drop (length l - n) l.

Definition _ensure_log_file (self : NotificationManager) : Py unit :=
  ex ← file_exists;
  if negb ex then
    now ← datetime_now;
    write_json
      {| notifications := [];
         settings := Some {| telegram_enabled := bool_decide (owner_telegram_id self ≠ None);
                             email_enabled := false;
                             created_at := isoformat now |} |}
  else mret tt.

(** [NotificationManager(owner_telegram_id, owner_email)] *)
Definition NotificationManager_init (owner email : option str) : Py NotificationManager :=
  let self := {| owner_telegram_id := owner; owner_email := email |} in
  _ensure_log_file self ;;
  mret self.

(** [user_info.get(key, 'N/A')], as the f-string renders it. *)
Definition field (user_info : gmap str pyval) (key : str) : str :=
  py_str (default (VStr NA) (user_info !! key)).

(** The template of [_format_notification_message], the timestamp given. *)
Definition formatted_message (message : str) (user_info : gmap str pyval)
    (notification_type timestamp : str) : str :=
  let user_id := field user_info (u "id") in
  let username := field user_info (u "username") in
  let first_name := field user_info (u "first_name") in
  let last_name := field user_info (u "last_name") in
  let header := default DEFAULT_HEADER (notification_types !! notification_type) in
  u "<b>" ++ header ++ u "</b>" ++ nl ++ nl
  ++ u "👤 <b>Пользователь:</b>" ++ nl
  ++ u "ID: " ++ user_id ++ nl
  ++ u "Username: @" ++ username ++ nl
  ++ u "Имя: " ++ first_name ++ nl
  ++ u "Фамилия: " ++ last_name ++ nl ++ nl
  ++ u "💬 <b>Сообщение:</b>" ++ nl
  ++ message ++ nl ++ nl
  ++ u "⏰ <b>Время:</b> " ++ timestamp ++ nl.

Definition _format_notification_message (self : NotificationManager) (message : str)
    (user_info : gmap str pyval) (notification_type : str) : Py str :=
  now ← datetime_now;
  mret (formatted_message message user_info notification_type (strftime now)).

(** [self.owner_telegram_id] passed as [chat_id]. *)
Definition owner_chat_id (self : NotificationManager) : pyval :=
  match owner_telegram_id self with
  | Some o => VStr o
  | None => VNone
  end.

Definition _send_telegram_notification (self : NotificationManager) (message : str)
    (user_info : gmap str pyval) (bot_instance : Bot) (notification_type : str)
    : Py op_result :=
  try_
    (formatted ← _format_notification_message self message user_info notification_type;
     send_message bot_instance (owner_chat_id self) formatted HTML ;;
     mret (OpSuccess None))
    (fun e => mret (OpFailure e)).

Definition _log_notification (self : NotificationManager) (message : str)
    (user_info : gmap str pyval) (notification_type : str) : Py op_result :=
  try_
    (ex ← file_exists;
     data ← (if ex : bool then read_json
             else mret {| notifications := []; settings := None |} : Py LogData);
     now ← datetime_now;
     let notification :=
       {| n_id := Z.of_nat (length (notifications data)) + 1;
          n_timestamp := isoformat now;
          n_type := notification_type;
          n_user_info := user_info;
          n_message := message;
          n_status := STATUS_PENDING;
          n_reviewed_at := None |} in
     let appended := notifications data ++ [notification] in
     let kept :=
       if decide (MAX_NOTIFICATIONS < length appended)
       then last_n MAX_NOTIFICATIONS appended
       else appended in
     write_json {| notifications := kept; settings := settings data |} ;;
     mret (OpSuccess (Some (n_id notification))))
    (fun e => mret (OpFailure e)).

Definition send_to_owner (self : NotificationManager) (message : str)
    (user_info : gmap str pyval) (bot_instance : option Bot) (notification_type : str)
    : Py SendResults :=
  let results :=
    {| telegram_sent := false; email_sent := false; logged := false; errors := [] |} in
  log_result ← _log_notification self message user_info notification_type;
  let results :=
    {| telegram_sent := telegram_sent results; email_sent := email_sent results;
       logged := success log_result;
       errors := if success log_result then errors results
                 else errors results ++ [LOG_ERROR ++ get_error log_result] |} in
  match bot_instance with
  | Some b =>
    if truthy (owner_telegram_id self) then
      telegram_result ← _send_telegram_notification self message user_info b notification_type;
      mret {| telegram_sent := success telegram_result; email_sent := email_sent results;
              logged := logged results;
              errors := if success telegram_result then errors results
                        else errors results ++ [TELEGRAM_ERROR ++ get_error telegram_result] |}
    else mret results
  | None => mret results
  end.

Definition get_pending_notifications (self : NotificationManager) : Py (list Notification) :=
  try_
    (ex ← file_exists;
     if ex : bool then
       data ← read_json;
       mret (filter (fun n => n_status n = STATUS_PENDING) (notifications data))
     else mret [])
    (fun e => mret []).

(** [notification["status"] = "reviewed"; notification["reviewed_at"] = ...] *)
Definition reviewed (n : Notification) (at_ : str) : Notification :=
  {| n_id := n_id n; n_timestamp := n_timestamp n; n_type := n_type n;
     n_user_info := n_user_info n; n_message := n_message n;
     n_status := STATUS_REVIEWED; n_reviewed_at := Some at_ |}.

(** The [for] loop of [mark_notification_as_reviewed]: [seen] are the records
    already passed, [rest] those still to visit; the record is changed in
    place and the whole document is written back. *)
Fixpoint mark_loop (notification_id : Z) (cfg : option Settings)
    (seen rest : list Notification) : Py bool :=
  match rest with
  | [] => mret false
  | n :: rest' =>
    if decide (n_id n = notification_id) then
      now ← datetime_now;
      write_json {| notifications := seen ++ reviewed n (isoformat now) :: rest';
                    settings := cfg |} ;;
      mret true
    else mark_loop notification_id cfg (seen ++ [n]) rest'
  end.

Definition mark_notification_as_reviewed (self : NotificationManager) (notification_id : Z)
    : Py bool :=
  try_
    (ex ← file_exists;
     if ex : bool then
       data ← read_json;
       mark_loop notification_id (settings data) [] (notifications data)
     else mret false)
    (fun e => mret false).

(* ===================================================================== *)
(** ** Sequences of insertions and observations *)
(* ===================================================================== *)

(** What one call of [_log_notification] is given. *)
Record entry := {
  e_message : str;
  e_user_info : gmap str pyval;
  e_type : str;
}.

(** The calls [_log_notification(e)] for the entries [es], one after the
    other. *)
Fixpoint log_all (self : NotificationManager) (es : list entry) : Py unit :=
  match es with
  | [] => mret tt
  | e :: es' =>
      _log_notification self (e_message e) (e_user_info e) (e_type e) ;;
      log_all self es'
  end.

(** The record of the [k]-th insertion (counted from 0) into a log that was
    empty in the world [w]. *)
Definition inserted (w : World) (k : nat) (e : entry) : Notification :=
  {| n_id := Z.of_nat (k `min` MAX_NOTIFICATIONS) + 1;
     n_timestamp := isoformat (clock w (ticks w + k));
     n_type := e_type e;
     n_user_info := e_user_info e;
     n_message := e_message e;
     n_status := STATUS_PENDING;
     n_reviewed_at := None |}.

(** The records of the log file, none when there is no readable document. *)
Definition records (w : World) : list Notification :=
  match log_file w with
  | Stored d => notifications d
  | _ => []
  end.

Definition stored_settings (w : World) : option Settings :=
  match log_file w with
  | Stored d => settings d
  | _ => None
  end.

(** The file is missing or holds a document without records. *)
Definition empty_log (w : World) : Prop :=
  match log_file w with
  | Absent => True
  | Stored d => notifications d = []
  | Corrupt _ => False
  end.

(** The file is missing or holds a document. *)
Definition readable (w : World) : Prop :=
  match log_file w with
  | Corrupt _ => False
  | _ => True
  end.

Definition is_send (e : Event) : bool :=
  match e with SendMessage _ _ _ => true | _ => false end.

Definition is_write (e : Event) : bool :=
  match e with WriteText _ => true | _ => false end.

(** The transmissions and the writes of the log file a trace holds. *)
Definition sends (w : World) : list Event := filter (fun e => is_send e = true) (trace w).
Definition writes (w : World) : list Event := filter (fun e => is_write e = true) (trace w).


(** The record a call of [_log_notification(e)] builds in the world [w], and
    the document it writes. *)
Definition next_record (w : World) (e : entry) : Notification :=
  {| n_id := Z.of_nat (length (records w)) + 1;
     n_timestamp := isoformat (clock w (ticks w));
     n_type := e_type e;
     n_user_info := e_user_info e;
     n_message := e_message e;
     n_status := STATUS_PENDING;
     n_reviewed_at := None |}.

Definition logged_document (w : World) (e : entry) : LogData :=
  {| notifications := last_n MAX_NOTIFICATIONS (records w ++ [next_record w e]);
     settings := stored_settings w |}.

Definition log_entry (self : NotificationManager) (e : entry) : Py op_result :=
  _log_notification self (e_message e) (e_user_info e) (e_type e).

(** The error entries a result of the log step, or of the transmission,
    contributes to [results["errors"]]. *)
Definition error_entries (label : str) (r : op_result) : list str :=
  if success r then [] else [label ++ get_error r].

(** The result of [bot.send_message] as [_send_telegram_notification]
    reports it. *)
Definition delivery (b : Bot) (chat_id : pyval) (text : str) : op_result :=
  match send_result b chat_id text with
  | None => OpSuccess None
  | Some err => OpFailure err
  end.

(** A bot whose every [send_message] raises [err]. *)
Definition failing_bot (err : str) : Bot := {| send_result := fun _ _ => Some err |}.



(* ===================================================================== *)
(** ** Concrete runs *)
(* ===================================================================== *)

(** Builtins restricted to ASCII: enough to run the handlers on the inputs
    below. *)
Definition ascii_lower (s : str) : str :=
  (fun c => if ((65 <=? c) && (c <=? 90))%N then (c + 32)%N else c) <$> s.

Fixpoint digits_value (acc : N) (s : str) : option N :=
  match s with
  | [] => Some acc
  | c :: s' => if is_digit c then digits_value (acc * 10 + (c - 48))%N s' else None
  end.

Definition decimal_int (s : str) : option Z :=
  match s with
  | [] => None
  | _ => Z.of_N <$> digits_value 0 s
  end.

Definition ascii_builtins : PyBuiltins :=
  {| py_lower := ascii_lower; py_int := decimal_int |}.

Definition noon : datetime :=
  {| year := 2024; month := 3; day := 9; hour := 12; minute := 0; second := 5;
     microsecond := 0 |}.

Definition empty_document : LogData := {| notifications := []; settings := None |}.

(** An idle conversation over an empty log. *)
Definition w_idle : World :=
  {| fsm_state := None; fsm_data := ∅; log_file := Stored empty_document;
     write_error := None; clock := fun _ => noon; ticks := 0; trace := [] |}.

Definition w_waiting : World := with_fsm (Some waiting_for_question) ∅ w_idle.

Definition bot_up : Bot := {| send_result := fun _ _ => None |}.
Definition bot_down : Bot := {| send_result := fun _ _ => Some (u "Forbidden") |}.

Definition alice : User :=
  {| user_id := 42; first_name := Some (u "Alice"); last_name := None;
     username := Some (u "alice") |}.

Definition alice_info : gmap str pyval :=
  {[ u "id" := VInt 42; u "first_name" := VStr (u "Alice") ]}.

Definition ask_with_owner : AskModule := {| bot := bot_up; owner_id := Some (u "777") |}.
Definition ask_without_owner : AskModule := {| bot := bot_up; owner_id := None |}.

Definition manager : NotificationManager :=
  {| owner_telegram_id := Some (u "777"); owner_email := None |}.

Definition T_collaborate : str := u "How to collaborate?".

Definition said (t : str) : Message := {| msg_text := Some t; msg_from_user := alice |}.

Definition sample_entry (k : nat) : entry :=
  {| e_message := decimal (N.of_nat k); e_user_info := ∅; e_type := u "feedback" |}.

(** A log of three records, the second and third with the same id. *)
Definition three_records : list Notification :=
  [inserted w_idle 0 (sample_entry 0);
   inserted w_idle 1 (sample_entry 1);
   reviewed (inserted w_idle 1 (sample_entry 2)) (isoformat noon)].

Definition w_three : World :=
  with_file (Stored {| notifications := three_records; settings := None |}) w_idle.

Definition collaborate_entry : entry :=
  {| e_message := T_collaborate; e_user_info := alice_info; e_type := u "user_question" |}.

(* ===================================================================== *)
(** ** Running the monad *)
(* ===================================================================== *)

Arguments u : simpl never.

Ltac py_unfold :=
  unfold exec, result, send_message, answer, edit_text, callback_answer,
    set_state, update_data, clear, get_state, get_data, datetime_now,
    file_exists, read_json, write_json, int_, text_of, modify, gets, try_, raise,
    mbind, mret, Py_bind, Py_ret in *.



(* ===================================================================== *)
(** ** Strings *)
(* ===================================================================== *)

Example u_prefix : u "вопрос:" = [1074; 1086; 1087; 1088; 1086; 1089; 58]%N.
Proof. reflexivity. Qed.

Example u_emoji : u "📨 x" = [128232; 32; 120]%N.
Proof. reflexivity. Qed.

Example strip_ex : strip (u "  a b  ") = u "a b".
Proof. reflexivity. Qed.

Example decimal_ex : decimal 2026 = u "2026" /\ decimal 0 = u "0" /\ zfill 2 7 = u "07".
Proof. repeat split; reflexivity. Qed.

Lemma startswith_app (p s : str) : startswith (p ++ s) p = true.
Proof.
  induction p as [|a p IH]; [done|].
  cbn. rewrite N.eqb_refl. exact IH.
Qed.

Lemma remove_first_prefix (p s : str) : remove_first p (p ++ s) = s.
Proof.
  destruct p as [|a p]; [by destruct s|].
  change (remove_first (a :: p) ((a :: p) ++ s))
    with (if startswith ((a :: p) ++ s) (a :: p)
          then drop (length (a :: p)) ((a :: p) ++ s)
          else a :: remove_first (a :: p) (p ++ s)).
  rewrite startswith_app. by rewrite drop_app_length.
Qed.

Lemma lstrip_spaces (s : str) : forallb is_space s = true -> lstrip s = [].
Proof.
  induction s as [|c s IH]; [done|].
  cbn. destruct (is_space c); [exact IH | done].
Qed.

Lemma strip_spaces (s : str) : forallb is_space s = true -> strip s = [].
Proof. intros Hs. unfold strip. by rewrite lstrip_spaces. Qed.

(* ===================================================================== *)
(** ** The conversation flow *)
(* ===================================================================== *)

Section Flow.
Context `{PyBuiltins}.

Lemma cmd_ask_owner_unset (self : AskModule) (message : Message) (w : World) :
  truthy (owner_id self) = false ->
  cmd_ask_owner self message w = (Ret tt, with_event (Answer TEXT_UNAVAILABLE_ASK None None) w).
Proof. intros Ho. unfold cmd_ask_owner. rewrite Ho. reflexivity. Qed.

Lemma cmd_cancel_run (self : AskModule) (message : Message) (w : World) :
  cmd_cancel self message w =
    match fsm_state w with
    | None => (Ret tt, with_event (Answer TEXT_NOTHING_TO_CANCEL None None) w)
    | Some _ => (Ret tt, with_event (Answer TEXT_CANCELLED None None) (with_fsm None ∅ w))
    end.
Proof. unfold cmd_cancel. py_unfold. by destruct (fsm_state w). Qed.

Lemma handle_quick_ask_unset (self : AskModule) (message : Message) (t : str) (w : World) :
  truthy (owner_id self) = false ->
  msg_text message = Some t ->
  handle_quick_ask self message w =
    (Ret tt,
     with_event (Answer (if decide (strip (remove_first QUICK_PREFIX t) = [])
                         then TEXT_USAGE else TEXT_UNAVAILABLE)
                        (if decide (strip (remove_first QUICK_PREFIX t) = [])
                         then Some HTML else None) None) w).
Proof.
  intros Ho Ht. unfold handle_quick_ask. py_unfold. rewrite Ht, Ho.
  by destruct (decide _).
Qed.




End Flow.

(* ===================================================================== *)
(** ** The log: one insertion *)
(* ===================================================================== *)

Lemma length_last_n {A} (n : nat) (l : list A) : length (last_n n l) = length l `min` n.
Proof. unfold last_n. rewrite length_drop. lia. Qed.

Lemma last_n_short {A} (n : nat) (l : list A) : length l <= n -> last_n n l = l.
Proof. intros Hl. unfold last_n. by replace (length l - n) with 0 by lia. Qed.

Lemma last_n_snoc {A} (n : nat) (l : list A) (x : A) :
  0 < n -> last_n n (last_n n l ++ [x]) = last_n n (l ++ [x]).
Proof.
  intros Hn. unfold last_n.
  rewrite !length_app, length_drop. cbn [length].
  destruct (decide (length l <= n)) as [Hle|Hgt].
  - replace (length l - n) with 0 by lia. cbn [drop]. f_equal. lia.
  - rewrite !drop_app_le by (rewrite ?length_drop; lia).
    rewrite drop_drop. do 2 f_equal. lia.
Qed.

Lemma last_last_n {A} (n : nat) (l : list A) (x : A) :
  0 < n -> last (last_n n (l ++ [x])) = Some x.
Proof.
  intros Hn. unfold last_n. rewrite length_app. cbn [length].
  rewrite drop_app_le by lia. apply last_snoc.
Qed.

(** What the [if len(...) > 100] of the source keeps is the last 100. *)
Lemma keep_last_n (l : list Notification) :
  (if decide (MAX_NOTIFICATIONS < length l) then last_n MAX_NOTIFICATIONS l else l)
  = last_n MAX_NOTIFICATIONS l.
Proof. destruct (decide _); [done|]. symmetry. apply last_n_short. lia. Qed.

Lemma log_entry_ok (self : NotificationManager) (e : entry) (w : World) :
  readable w -> write_error w = None ->
  log_entry self e w =
    (Ret (OpSuccess (Some (Z.of_nat (length (records w)) + 1)%Z)),
     with_event (WriteText (logged_document w e))
       (with_file (Stored (logged_document w e)) (with_tick w))).
Proof.
  intros Hr Hw. unfold log_entry, _log_notification, logged_document, next_record,
    records, stored_settings, readable in *.
  py_unfold. destruct (log_file w) as [|err|d] eqn:Hf; [|done|].
  all: cbn [write_error with_tick notifications settings].
  - rewrite Hw. rewrite keep_last_n. reflexivity.
  - rewrite Hf. cbn [write_error with_tick notifications settings].
    rewrite Hw. rewrite keep_last_n. reflexivity.
Qed.

Lemma log_entry_corrupt (self : NotificationManager) (e : entry) (w : World) (err : str) :
  log_file w = Corrupt err ->
  log_entry self e w = (Ret (OpFailure err), w).
Proof.
  intros Hf. unfold log_entry, _log_notification. py_unfold.
  rewrite Hf. cbn beta iota. by rewrite Hf.
Qed.

Lemma log_entry_unwritable (self : NotificationManager) (e : entry) (w : World) (err : str) :
  readable w -> write_error w = Some err ->
  log_entry self e w = (Ret (OpFailure err), with_tick w).
Proof.
  intros Hr Hw. unfold log_entry, _log_notification, readable in *. py_unfold.
  destruct (log_file w) eqn:Hf; [|done|]; rewrite ?Hf; cbn [write_error with_tick];
    by rewrite Hw.
Qed.

(** The three ways a call can go. *)
Lemma log_entry_cases (self : NotificationManager) (e : entry) (w : World) :
  (readable w /\ write_error w = None) \/
  (exists err, log_file w = Corrupt err) \/
  (readable w /\ exists err, write_error w = Some err).
Proof.
  unfold readable. destruct (log_file w) as [|err|d], (write_error w) as [err'|]; eauto.
Qed.

Lemma records_logged (w : World) (d : LogData) (ev : Event) :
  records (with_event ev (with_file (Stored d) (with_tick w))) = notifications d.
Proof. reflexivity. Qed.

(* ===================================================================== *)
(** ** The log: sequences of insertions *)
(* ===================================================================== *)

Lemma log_all_app (self : NotificationManager) (es1 es2 : list entry) (w : World) :
  log_all self (es1 ++ es2) w =
    match log_all self es1 w with
    | (Ret _, w') => log_all self es2 w'
    | (Raise err, w') => (Raise err, w')
    end.
Proof.
  revert w. induction es1 as [|e es1 IH]; intros w; [done|].
  cbn [app log_all]. py_unfold.
  destruct (_log_notification _ _ _ _ w) as [[r|err] w1]; [apply IH | done].
Qed.

Lemma inserted_next (w w' : World) (k : nat) (e : entry) :
  clock w' = clock w -> ticks w' = ticks w + k ->
  length (records w') = k `min` MAX_NOTIFICATIONS ->
  next_record w' e = inserted w k e.
Proof.
  intros Hc Ht Hl. unfold next_record, inserted. by rewrite Hc, Ht, Hl.
Qed.

(** After the insertions [es] into an empty log, the file holds the last 100
    of the records built, in the order of insertion. *)
Lemma log_all_from_empty (self : NotificationManager) (es : list entry) (w : World) :
  empty_log w -> write_error w = None ->
  exists w', log_all self es w = (Ret tt, w')
    /\ readable w' /\ write_error w' = None
    /\ clock w' = clock w /\ ticks w' = ticks w + length es
    /\ records w' = last_n MAX_NOTIFICATIONS (imap (inserted w) es)
    /\ stored_settings w' = stored_settings w.
Proof.
  intros He Hw. induction es as [|e es IH] using rev_ind.
  - exists w. split_and!; try done.
    + unfold readable, empty_log in *. by destruct (log_file w).
    + unfold records, empty_log in *. by destruct (log_file w).
  - destruct IH as (w1 & Hrun & Hr1 & Hw1 & Hc1 & Ht1 & Hrec1 & Hs1).
    rewrite log_all_app, Hrun. cbn [log_all]. py_unfold.
    fold (log_entry self e). rewrite (log_entry_ok self e w1 Hr1 Hw1).
    eexists. split; [reflexivity|].
    split_and!; try done.
    + cbn. rewrite length_app. cbn. lia.
    + rewrite records_logged. unfold logged_document. cbn [notifications].
      rewrite (inserted_next w w1 (length es) e Hc1 Ht1).
      * rewrite Hrec1, imap_app. cbn [imap]. rewrite Nat.add_0_r.
        apply last_n_snoc. unfold MAX_NOTIFICATIONS. lia.
      * by rewrite Hrec1, length_last_n, length_imap.
Qed.

Lemma inserted_ids (w : World) (es : list entry) :
  n_id <$> imap (inserted w) es
  = (fun k => Z.of_nat (k `min` MAX_NOTIFICATIONS) + 1)%Z <$> seq 0 (length es).
Proof.
  rewrite fmap_imap. rewrite <- (imap_seq_0 es). apply imap_ext. done.
Qed.

(* ===================================================================== *)
(** ** The log: acknowledging a record *)
(* ===================================================================== *)

Lemma mark_loop_found (i : Z) (cfg : option Settings) (pre : list Notification) :
  forall (seen : list Notification) (r : Notification) (post : list Notification) (w : World),
    n_id r = i -> Forall (fun x => n_id x <> i) pre -> write_error w = None ->
    let d := {| notifications := (seen ++ pre) ++ reviewed r (isoformat (clock w (ticks w))) :: post;
                settings := cfg |} in
    mark_loop i cfg seen (pre ++ r :: post) w =
      (Ret true, with_event (WriteText d) (with_file (Stored d) (with_tick w))).
Proof.
  induction pre as [|x pre IH]; intros seen r post w Hr Hpre Hw; cbn zeta.
  - cbn [app mark_loop]. destruct (decide _) as [_|]; [|done].
    py_unfold. cbn [write_error with_tick]. rewrite Hw. by rewrite app_nil_r.
  - apply Forall_cons in Hpre as [Hx Hpre].
    cbn [app mark_loop]. destruct (decide _) as [|_]; [done|].
    rewrite (IH (seen ++ [x]) r post w Hr Hpre Hw). cbn zeta.
    by rewrite <- !(assoc_L (++) seen [x] pre).
Qed.

Lemma mark_loop_missing (i : Z) (cfg : option Settings) (rest : list Notification) :
  forall (seen : list Notification) (w : World),
    Forall (fun x => n_id x <> i) rest ->
    mark_loop i cfg seen rest w = (Ret false, w).
Proof.
  induction rest as [|x rest IH]; intros seen w Hrest; [done|].
  apply Forall_cons in Hrest as [Hx Hrest].
  cbn [mark_loop]. destruct (decide _) as [|_]; [done|]. by apply IH.
Qed.

Lemma isoformat_nonempty (t : datetime) : isoformat t <> [].
Proof.
  unfold isoformat. change (u "-") with [45%N].
  intros Heq. apply (f_equal length) in Heq.
  rewrite !length_app in Heq. cbn [length] in Heq. lia.
Qed.

(* ===================================================================== *)
(** ** Dispatch *)
(* ===================================================================== *)

Lemma send_telegram_run (self : NotificationManager) (message : str)
    (user_info : gmap str pyval) (b : Bot) (ty : str) (w : World) :
  let text := formatted_message message user_info ty (strftime (clock w (ticks w))) in
  _send_telegram_notification self message user_info b ty w =
    (Ret (delivery b (owner_chat_id self) text),
     with_event (SendMessage (owner_chat_id self) text HTML) (with_tick w)).
Proof.
  cbn zeta. unfold _send_telegram_notification, _format_notification_message, delivery.
  py_unfold. by destruct (send_result _ _ _).
Qed.

(** [_log_notification] never raises, and only touches the file, the clock
    and the trace. *)
Lemma log_notification_total (self : NotificationManager) (message : str)
    (user_info : gmap str pyval) (ty : str) (w : World) :
  exists (lr : op_result) (w1 : World),
    _log_notification self message user_info ty w = (Ret lr, w1)
    /\ sends w1 = sends w
    /\ match lr with
       | OpSuccess nid =>
           exists d, log_file w1 = Stored d /\ trace w1 = trace w ++ [WriteText d]
             /\ last (notifications d)
                = Some (next_record w {| e_message := message; e_user_info := user_info;
                                         e_type := ty |})
       | OpFailure err => log_file w1 = log_file w /\ trace w1 = trace w
       end.
Proof.
  set (e := {| e_message := message; e_user_info := user_info; e_type := ty |}).
  change (_log_notification self message user_info ty) with (log_entry self e).
  destruct (log_entry_cases self e w) as [[Hr Hw]|[[err Hf]|[Hr [err Hw]]]].
  - rewrite (log_entry_ok self e w Hr Hw). do 2 eexists. split; [reflexivity|].
    split.
    + unfold sends. cbn [trace with_event with_file with_tick].
      rewrite filter_app. cbn. by rewrite app_nil_r.
    + eexists. split_and!; [reflexivity|reflexivity|].
      unfold logged_document. cbn [notifications].
      apply last_last_n. unfold MAX_NOTIFICATIONS. lia.
  - rewrite (log_entry_corrupt self e w err Hf). by do 2 eexists.
  - rewrite (log_entry_unwritable self e w err Hr Hw). by do 2 eexists.
Qed.

Lemma send_to_owner_run (self : NotificationManager) (message : str)
    (user_info : gmap str pyval) (bot_instance : option Bot) (ty : str)
    (w w1 : World) (lr : op_result) :
  _log_notification self message user_info ty w = (Ret lr, w1) ->
  let text := formatted_message message user_info ty (strftime (clock w1 (ticks w1))) in
  let skipped := {| telegram_sent := false; email_sent := false; logged := success lr;
                    errors := error_entries LOG_ERROR lr |} in
  send_to_owner self message user_info bot_instance ty w =
    match bot_instance with
    | Some b =>
      if truthy (owner_telegram_id self) then
        (Ret {| telegram_sent := success (delivery b (owner_chat_id self) text);
                email_sent := false; logged := success lr;
                errors := error_entries LOG_ERROR lr
                          ++ error_entries TELEGRAM_ERROR (delivery b (owner_chat_id self) text) |},
         with_event (SendMessage (owner_chat_id self) text HTML) (with_tick w1))
      else (Ret skipped, w1)
    | None => (Ret skipped, w1)
    end.
Proof.
  intros Hlog. cbn zeta. unfold send_to_owner. py_unfold. rewrite Hlog.
  cbn [telegram_sent email_sent logged errors app].
  unfold error_entries.
  destruct bot_instance as [b|]; [|by destruct (success lr)].
  destruct (truthy _); [|by destruct (success lr)].
  rewrite send_telegram_run.
  destruct (success lr), (success (delivery _ _ _)); by rewrite ?app_nil_r.
Qed.

Lemma log_entry_is_not_telegram (err : str) :
  startswith (LOG_ERROR ++ err) TELEGRAM_ERROR = false.
Proof. reflexivity. Qed.

(* ===================================================================== *)
(** ** Formatting *)
(* ===================================================================== *)














(** C3. Log cap and trim order: from any log contents, a successful call of
    [_log_notification] leaves at most 100 records in the file; and 105
    insertions, one after the other, into an empty log leave exactly 100
    records, which are the last 100 of the records inserted, in the order of
    insertion (the first 5 are dropped from the front). *)
Theorem log_cap_and_trim_order (self : NotificationManager) :
  (forall (e : entry) (w : World) (nid : option Z),
      result (log_entry self e) w = Ret (OpSuccess nid) ->
      length (records (exec (log_entry self e) w)) <= MAX_NOTIFICATIONS)
  /\
  (forall (es : list entry) (w : World),
      empty_log w -> write_error w = None -> length es = 105 ->
      let w' := exec (log_all self es) w in
      length (records w') = 100
      /\ records w' = drop 5 (imap (inserted w) es)
      /\ (fun n => (n_message n, n_user_info n, n_type n)) <$> records w'
         = (fun e => (e_message e, e_user_info e, e_type e)) <$> drop 5 es).
Proof.
  split.
  - intros e w nid Hres. unfold result, exec in *.
    destruct (log_entry_cases self e w) as [[Hr Hw]|[[err Hf]|[Hr [err Hw]]]].
    + rewrite (log_entry_ok self e w Hr Hw). cbn [snd].
      rewrite records_logged. unfold logged_document. cbn [notifications].
      rewrite length_last_n. lia.
    + rewrite (log_entry_corrupt self e w err Hf) in Hres. discriminate Hres.
    + rewrite (log_entry_unwritable self e w err Hr Hw) in Hres. discriminate Hres.
  - intros es w He Hw Hlen. cbn zeta.
    destruct (log_all_from_empty self es w He Hw) as (w' & Hrun & _ & _ & _ & _ & Hrec & _).
    unfold exec. rewrite Hrun. cbn [snd].
    assert (Hdrop : records w' = drop 5 (imap (inserted w) es)).
    { rewrite Hrec. unfold last_n, MAX_NOTIFICATIONS. by rewrite length_imap, Hlen. }
    split_and!.
    + rewrite Hdrop, length_drop, length_imap. lia.
    + exact Hdrop.
    + rewrite Hdrop, !fmap_drop, fmap_imap. f_equal.
      rewrite <- imap_const. by apply imap_ext.
Qed.

(** C6. Id assignment: a call of [_log_notification] that can read and write
    the file gives the new record the id "number of records in the file plus
    one". So from an empty log the ids of the first 100 insertions are
    1, 2, 3, ...; once the cap is exceeded every insertion finds 100 records
    and is given 101: after 202 insertions the 101st record, which had id
    101, has been trimmed, and all the records retained carry that id
    again. *)
Theorem id_is_count_plus_one (self : NotificationManager) :
  (forall (e : entry) (w : World),
      readable w -> write_error w = None ->
      let new_id := (Z.of_nat (length (records w)) + 1)%Z in
      result (log_entry self e) w = Ret (OpSuccess (Some new_id))
      /\ last (records (exec (log_entry self e) w)) = Some (next_record w e)
      /\ n_id (next_record w e) = new_id)
  /\
  (forall (es : list entry) (w : World),
      empty_log w -> write_error w = None -> length es <= 100 ->
      n_id <$> records (exec (log_all self es) w) = Z.of_nat <$> seq 1 (length es))
  /\
  (forall (es : list entry) (w : World),
      empty_log w -> write_error w = None -> length es = 202 ->
      let w1 := exec (log_all self (take 101 es)) w in
      let w2 := exec (log_all self es) w in
      n_id <$> last (records w1) = Some 101%Z
      /\ last (records w1) = imap (inserted w) es !! 100
      /\ records w2 = drop 102 (imap (inserted w) es)
      /\ n_id <$> records w2 = replicate 100 101%Z).
Proof.
  split_and!.
  - intros e w Hr Hw. cbn zeta. unfold result, exec.
    rewrite (log_entry_ok self e w Hr Hw). cbn [fst snd].
    split_and!; [done| |done].
    rewrite records_logged. unfold logged_document. cbn [notifications].
    apply last_last_n. unfold MAX_NOTIFICATIONS. lia.
  - intros es w He Hw Hlen.
    destruct (log_all_from_empty self es w He Hw) as (w' & Hrun & _ & _ & _ & _ & Hrec & _).
    unfold exec. rewrite Hrun. cbn [snd]. rewrite Hrec.
    rewrite last_n_short by (rewrite length_imap; unfold MAX_NOTIFICATIONS; lia).
    rewrite inserted_ids. rewrite <- (fmap_S_seq 0), <- list_fmap_compose.
    apply list_fmap_ext. intros i k Hk. apply lookup_seq in Hk as [-> Hk].
    cbn. unfold MAX_NOTIFICATIONS. lia.
  - intros es w He Hw Hlen. cbn zeta.
    destruct (log_all_from_empty self es w He Hw) as (w2 & Hrun2 & _ & _ & _ & _ & Hrec2 & _).
    destruct (log_all_from_empty self (take 101 es) w He Hw)
      as (w1 & Hrun1 & _ & _ & _ & _ & Hrec1 & _).
    unfold exec. rewrite Hrun1, Hrun2. cbn [snd].
    assert (Hd2 : records w2 = drop 102 (imap (inserted w) es)).
    { rewrite Hrec2. unfold last_n, MAX_NOTIFICATIONS. by rewrite length_imap, Hlen. }
    assert (Hl1 : last (records w1) = imap (inserted w) es !! 100).
    { rewrite Hrec1. unfold last_n, MAX_NOTIFICATIONS.
      rewrite length_imap, length_take, Hlen. cbn [Nat.min Nat.sub].
      rewrite last_lookup, length_drop, length_imap, length_take, Hlen.
      cbn [Nat.min Nat.sub Nat.pred]. rewrite lookup_drop.
      rewrite !list_lookup_imap. rewrite lookup_take_lt by lia. done. }
    split_and!; [|exact Hl1|exact Hd2|].
    + rewrite Hl1, list_lookup_imap.
      destruct (es !! 100) as [e|] eqn:He100; [done|].
      apply lookup_ge_None in He100. lia.
    + rewrite Hd2, fmap_drop, inserted_ids, Hlen. reflexivity.
Qed.

(** C5. Acknowledge by id: over a readable and writable log file,
    [mark_notification_as_reviewed(i)] returns [True] when some record has
    id [i]; the first such record, whatever its status, gets status
    ["reviewed"] and a non-empty [reviewed_at], and the file is otherwise
    as before. When no record of the file has id [i] (also when the file is
    missing or unreadable) it returns [False] and changes nothing. *)
Theorem acknowledge_by_id (self : NotificationManager) (i : Z) (w : World) :
  let run := mark_notification_as_reviewed self i in
  (forall (d : LogData) (pre : list Notification) (r : Notification) (post : list Notification),
      log_file w = Stored d -> write_error w = None ->
      notifications d = pre ++ r :: post ->
      n_id r = i -> Forall (fun x => n_id x <> i) pre ->
      let now := isoformat (clock w (ticks w)) in
      result run w = Ret true
      /\ log_file (exec run w)
         = Stored {| notifications := pre ++ reviewed r now :: post; settings := settings d |}
      /\ n_status (reviewed r now) = STATUS_REVIEWED
      /\ n_reviewed_at (reviewed r now) = Some now
      /\ now <> [])
  /\
  (Forall (fun x => n_id x <> i) (records w) ->
      result run w = Ret false /\ exec run w = w).
Proof.
  cbn zeta. split.
  - intros d pre r post Hf Hw Hd Hr Hpre.
    unfold result, exec, mark_notification_as_reviewed. py_unfold.
    rewrite Hf. cbn beta iota. rewrite Hf, Hd.
    rewrite (mark_loop_found i (settings d) pre [] r post w Hr Hpre Hw).
    cbn. split_and!; try done. apply isoformat_nonempty.
  - intros Hall. unfold result, exec, mark_notification_as_reviewed, records in *.
    py_unfold. destruct (log_file w) as [|err|d] eqn:Hf; [done| |].
    + rewrite Hf. done.
    + rewrite Hf. by rewrite (mark_loop_missing i (settings d) _ [] w Hall).
Qed.



(** C10, as stated, fails in its last clause: a skipped transmission and a
    failed one return the same three booleans and differ in the list of
    errors. Here the same call is made without a bot and with a bot that
    raises. *)
Lemma skipped_and_failed_differ_in_errors :
  exists skipped failed : SendResults,
    result (send_to_owner manager T_collaborate alice_info None (u "user_question")) w_idle
      = Ret skipped
    /\ result (send_to_owner manager T_collaborate alice_info (Some bot_down)
                 (u "user_question")) w_idle
       = Ret failed
    /\ (logged skipped, telegram_sent skipped, email_sent skipped)
       = (logged failed, telegram_sent failed, email_sent failed)
    /\ errors skipped = []
    /\ errors failed = [TELEGRAM_ERROR ++ u "Forbidden"]
    /\ errors skipped <> errors failed.
Proof.
  do 2 eexists. split_and!; [vm_compute; reflexivity | vm_compute; reflexivity | | | | ].
  - reflexivity.
  - reflexivity.
  - vm_compute. reflexivity.
  - cbn [errors]. discriminate.
Qed.

(** C10, amended. When the owner id or the bot is absent, [send_to_owner]
    attempts no transmission, [telegram_sent] and [email_sent] are false and
    no entry of the error list is a transmission error. A transmission that
    is attempted and fails returns the same three booleans: it differs from
    the skipped one by its ["Telegram error: ..."] entry alone. *)
Theorem skipped_transmission_is_silent (self : NotificationManager) (message : str)
    (user_info : gmap str pyval) (bot_instance : option Bot) (ty : str) (w : World) :
  truthy (owner_telegram_id self) = false \/ bot_instance = None ->
  let send := send_to_owner self message user_info bot_instance ty in
  exists r : SendResults,
    result send w = Ret r
    /\ sends (exec send w) = sends w
    /\ telegram_sent r = false /\ email_sent r = false
    /\ Forall (fun entry => startswith entry TELEGRAM_ERROR = false) (errors r)
    /\ forall (self' : NotificationManager) (err : str),
         truthy (owner_telegram_id self') = true ->
         exists r' : SendResults,
           result (send_to_owner self' message user_info (Some (failing_bot err)) ty) w
             = Ret r'
           /\ logged r' = logged r
           /\ telegram_sent r' = telegram_sent r
           /\ email_sent r' = email_sent r
           /\ errors r' = errors r ++ [TELEGRAM_ERROR ++ err].
Proof.
  intros Habsent. cbn zeta.
  destruct (log_notification_total self message user_info ty w)
    as (lr & w1 & Hlog & Hsends & _).
  set (skipped := {| telegram_sent := false; email_sent := false; logged := success lr;
                     errors := error_entries LOG_ERROR lr |}).
  assert (Hrun : send_to_owner self message user_info bot_instance ty w = (Ret skipped, w1)).
  { rewrite (send_to_owner_run self message user_info bot_instance ty w w1 lr Hlog).
    cbn zeta. destruct Habsent as [Ho| ->]; [|done]. rewrite Ho. by destruct bot_instance. }
  unfold result, exec.
  rewrite Hrun. cbn [fst snd]. exists skipped. split_and!; try done.
  - unfold skipped, error_entries. cbn [errors].
    destruct lr as [nid|err]; cbn [success get_error]; [constructor|].
    constructor; [apply log_entry_is_not_telegram | constructor].
  - intros self' err Ho'.
    rewrite (send_to_owner_run self' message user_info (Some (failing_bot err)) ty w w1 lr Hlog).
    cbn zeta. rewrite Ho'. eexists. split; [reflexivity|]. done.
Qed.

Section FlowProperties.
Context `{PyBuiltins}.


(** C8. Quick-ask emptiness guard: for a message that is the prefix
    ["вопрос:"] followed by white space only, [handle_quick_ask] answers
    with the usage hint and does nothing else: no transmission, no write of
    the log file, and the conversation state and data are as before. *)
Theorem quick_ask_empty_guard (self : AskModule) (ws : str) (user : User) (w : World) :
  forallb is_space ws = true ->
  let message := {| msg_text := Some (QUICK_PREFIX ++ ws); msg_from_user := user |} in
  let w' := exec (handle_quick_ask self message) w in
  result (handle_quick_ask self message) w = Ret tt
  /\ trace w' = trace w ++ [Answer TEXT_USAGE (Some HTML) None]
  /\ sends w' = sends w /\ writes w' = writes w
  /\ log_file w' = log_file w
  /\ fsm_state w' = fsm_state w /\ fsm_data w' = fsm_data w.
Proof.
  intros Hws. cbn zeta. unfold result, exec, handle_quick_ask. py_unfold.
  cbn [msg_text]. rewrite remove_first_prefix, (strip_spaces ws Hws).
  destruct (decide _) as [_|]; [|done]. cbn [fst snd].
  split_and!; try done.
  - unfold sends. cbn [trace with_event]. rewrite filter_app. cbn. by rewrite app_nil_r.
  - unfold writes. cbn [trace with_event]. rewrite filter_app. cbn. by rewrite app_nil_r.
Qed.

(** C2, amended. With the owner id unset: the start command answers with
    the unavailable message and changes nothing else; a quick-ask message
    with content answers with the one-line form of that message and changes
    nothing else; the cancel command does not look at the owner id, it
    answers that there is nothing to cancel when the conversation is idle
    and otherwise clears the conversation. None of the three transmits to
    the owner or touches the log file. *)
Theorem owner_unset_entry_points (self : AskModule) (message : Message) (w : World) :
  truthy (owner_id self) = false ->
  exec (cmd_ask_owner self message) w
    = with_event (Answer TEXT_UNAVAILABLE_ASK None None) w
  /\ (forall t, msg_text message = Some t ->
        strip (remove_first QUICK_PREFIX t) <> [] ->
        exec (handle_quick_ask self message) w
          = with_event (Answer TEXT_UNAVAILABLE None None) w)
  /\ exec (cmd_cancel self message) w
     = match fsm_state w with
       | None => with_event (Answer TEXT_NOTHING_TO_CANCEL None None) w
       | Some _ => with_event (Answer TEXT_CANCELLED None None) (with_fsm None ∅ w)
       end
  /\ Forall (fun handler : AskModule -> Message -> Py unit =>
               let w' := exec (handler self message) w in
               log_file w' = log_file w /\ sends w' = sends w /\ writes w' = writes w)
            [cmd_ask_owner; handle_quick_ask; cmd_cancel].
Proof.
  intros Ho. unfold exec.
  assert (Hev : forall (ev : Event) (w0 : World),
             is_send ev = false -> is_write ev = false ->
             log_file (with_event ev w0) = log_file w0
             /\ sends (with_event ev w0) = sends w0
             /\ writes (with_event ev w0) = writes w0).
  { intros ev w0 Hs Hwr. unfold sends, writes. cbn [log_file trace with_event].
    rewrite !filter_app. cbn. rewrite Hs, Hwr.
    repeat case_decide; try done. by rewrite !app_nil_r. }
  split_and!.
  - by rewrite cmd_ask_owner_unset.
  - intros t Ht Hne. rewrite (handle_quick_ask_unset self message t w Ho Ht).
    by destruct (decide _).
  - rewrite cmd_cancel_run. by destruct (fsm_state w).
  - constructor; [|constructor; [|constructor; [|constructor]]]; cbn beta zeta.
    + rewrite cmd_ask_owner_unset by done. by apply Hev.
    + destruct (msg_text message) as [t|] eqn:Ht.
      * rewrite (handle_quick_ask_unset self message t w Ho Ht). by apply Hev.
      * unfold handle_quick_ask. py_unfold. by rewrite Ht.
    + rewrite cmd_cancel_run. destruct (fsm_state w).
      * by apply (Hev _ (with_fsm None ∅ w)).
      * by apply Hev.
Qed.


End FlowProperties.

(* ===================================================================== *)
(** ** Concrete runs of the flow *)
(* ===================================================================== *)


(** C2, as stated, fails for the cancel command: with the owner id unset it
    answers "nothing to cancel" in an idle conversation, which is not the
    unavailable message, and in a conversation that has a state it clears
    the state. It fails too for a quick-ask message without content, which
    is answered with the usage hint. *)
Lemma cancel_ignores_missing_owner :
  truthy (owner_id ask_without_owner) = false
  /\ trace (exec (cmd_cancel ask_without_owner (said CANCEL_KEYWORD)) w_idle)
     = [Answer TEXT_NOTHING_TO_CANCEL None None]
  /\ TEXT_NOTHING_TO_CANCEL <> TEXT_UNAVAILABLE
  /\ TEXT_NOTHING_TO_CANCEL <> TEXT_UNAVAILABLE_ASK
  /\ fsm_state w_waiting = Some waiting_for_question
  /\ fsm_state (exec (cmd_cancel ask_without_owner (said CANCEL_KEYWORD)) w_waiting) = None
  /\ trace (exec (handle_quick_ask (H := ascii_builtins) ask_without_owner
                    (said QUICK_PREFIX)) w_idle)
     = [Answer TEXT_USAGE (Some HTML) None]
  /\ TEXT_USAGE <> TEXT_UNAVAILABLE.
Proof.
  split_and!; try (vm_compute; reflexivity); vm_compute; discriminate.
Qed.

(* ===================================================================== *)
(** ** The theorems at concrete inputs *)
(* ===================================================================== *)



Lemma owner_unset_entry_points_witness :
  truthy (owner_id ask_without_owner) = false
  /\ exec (cmd_ask_owner ask_without_owner (said (u "/ask"))) w_idle
     = with_event (Answer TEXT_UNAVAILABLE_ASK None None) w_idle.
Proof.
  split; [reflexivity|].
  apply (owner_unset_entry_points (H := ascii_builtins) ask_without_owner (said (u "/ask"))
           w_idle).
  reflexivity.
Defined.

Lemma log_cap_and_trim_order_witness :
  let es := sample_entry <$> seq 0 105 in
  let w' := exec (log_all manager es) w_idle in
  (result (log_entry manager collaborate_entry) w_three = Ret (OpSuccess (Some 4%Z))
   /\ empty_log w_idle /\ write_error w_idle = None /\ length es = 105)
  /\ length (records (exec (log_entry manager collaborate_entry) w_three)) <= MAX_NOTIFICATIONS
  /\ length (records w') = 100
  /\ records w' = drop 5 (imap (inserted w_idle) es)
  /\ (fun n => (n_message n, n_user_info n, n_type n)) <$> records w'
     = (fun e => (e_message e, e_user_info e, e_type e)) <$> drop 5 es.
Proof.
  cbn zeta. split; [split_and!; reflexivity|]. split.
  - apply (proj1 (log_cap_and_trim_order manager) collaborate_entry w_three (Some 4%Z)).
    reflexivity.
  - apply (proj2 (log_cap_and_trim_order manager) (sample_entry <$> seq 0 105) w_idle);
      reflexivity.
Defined.

Lemma acknowledge_by_id_witness :
  let run := mark_notification_as_reviewed manager 2 in
  let r := inserted w_idle 1 (sample_entry 1) in
  (log_file w_three = Stored {| notifications := three_records; settings := None |}
   /\ write_error w_three = None
   /\ three_records = [inserted w_idle 0 (sample_entry 0)] ++ r
        :: [reviewed (inserted w_idle 1 (sample_entry 2)) (isoformat noon)]
   /\ n_id r = 2%Z
   /\ Forall (fun x => n_id x <> 2%Z) [inserted w_idle 0 (sample_entry 0)])
  /\ (result run w_three = Ret true
      /\ log_file (exec run w_three)
         = Stored {| notifications :=
                       [inserted w_idle 0 (sample_entry 0)] ++ reviewed r (isoformat noon)
                         :: [reviewed (inserted w_idle 1 (sample_entry 2)) (isoformat noon)];
                     settings := None |}
      /\ n_status (reviewed r (isoformat noon)) = STATUS_REVIEWED
      /\ n_reviewed_at (reviewed r (isoformat noon)) = Some (isoformat noon)
      /\ isoformat noon <> []).
Proof.
  cbn zeta.
  assert (Hpre : Forall (fun x => n_id x <> 2%Z) [inserted w_idle 0 (sample_entry 0)])
    by (repeat constructor; vm_compute; discriminate).
  split; [split_and!; try reflexivity; exact Hpre|].
  apply (proj1 (acknowledge_by_id manager 2 w_three)
           {| notifications := three_records; settings := None |}
           [inserted w_idle 0 (sample_entry 0)]
           (inserted w_idle 1 (sample_entry 1))
           [reviewed (inserted w_idle 1 (sample_entry 2)) (isoformat noon)]);
    try reflexivity.
  exact Hpre.
Defined.

(** An id that no record carries: nothing is found and nothing changes. *)
Lemma acknowledge_unknown_id :
  Forall (fun x => n_id x <> 7%Z) (records w_three)
  /\ result (mark_notification_as_reviewed manager 7) w_three = Ret false
  /\ exec (mark_notification_as_reviewed manager 7) w_three = w_three.
Proof.
  assert (Hall : Forall (fun x => n_id x <> 7%Z) (records w_three))
    by (repeat constructor; vm_compute; discriminate).
  split; [exact Hall|]. vm_compute. split; reflexivity.
Qed.

Lemma id_is_count_plus_one_witness :
  let es := sample_entry <$> seq 0 202 in
  (readable w_three /\ write_error w_three = None
   /\ empty_log w_idle /\ write_error w_idle = None
   /\ length (take 7 es) <= 100 /\ length es = 202)
  /\ (result (log_entry manager collaborate_entry) w_three = Ret (OpSuccess (Some 4%Z))
      /\ last (records (exec (log_entry manager collaborate_entry) w_three))
         = Some (next_record w_three collaborate_entry)
      /\ n_id (next_record w_three collaborate_entry) = 4%Z)
  /\ n_id <$> records (exec (log_all manager (take 7 es)) w_idle)
     = [1; 2; 3; 4; 5; 6; 7]%Z
  /\ n_id <$> last (records (exec (log_all manager (take 101 es)) w_idle)) = Some 101%Z
  /\ n_id <$> records (exec (log_all manager es) w_idle) = replicate 100 101%Z.
Proof.
  cbn zeta.
  assert (Hshort : length (take 7 (sample_entry <$> seq 0 202)) <= 100) by (cbn; lia).
  assert (Hlen : length (sample_entry <$> seq 0 202) = 202) by reflexivity.
  split; [split_and!; try reflexivity; try exact I; exact Hshort|].
  split; [|split].
  - apply (proj1 (id_is_count_plus_one manager) collaborate_entry w_three);
      [exact I | reflexivity].
  - exact (proj1 (proj2 (id_is_count_plus_one manager))
             (take 7 (sample_entry <$> seq 0 202)) w_idle eq_refl eq_refl Hshort).
  - destruct (proj2 (proj2 (id_is_count_plus_one manager))
                (sample_entry <$> seq 0 202) w_idle eq_refl eq_refl Hlen)
      as (Hlast & _ & _ & Hall).
    split; [exact Hlast | exact Hall].
Defined.

Lemma quick_ask_empty_guard_witness :
  let message := {| msg_text := Some (QUICK_PREFIX ++ u "   "); msg_from_user := alice |} in
  let w' := exec (handle_quick_ask (H := ascii_builtins) ask_with_owner message) w_idle in
  forallb is_space (u "   ") = true
  /\ (result (handle_quick_ask (H := ascii_builtins) ask_with_owner message) w_idle = Ret tt
      /\ trace w' = trace w_idle ++ [Answer TEXT_USAGE (Some HTML) None]
      /\ sends w' = sends w_idle /\ writes w' = writes w_idle
      /\ log_file w' = log_file w_idle
      /\ fsm_state w' = fsm_state w_idle /\ fsm_data w' = fsm_data w_idle).
Proof.
  cbn zeta. split; [reflexivity|].
  apply (quick_ask_empty_guard (H := ascii_builtins) ask_with_owner (u "   ") alice w_idle).
  reflexivity.
Defined.


Lemma skipped_transmission_is_silent_witness :
  let send := send_to_owner manager T_collaborate alice_info None (u "user_question") in
  (truthy (owner_telegram_id manager) = false \/ @None Bot = None)
  /\ exists r : SendResults,
       result send w_idle = Ret r
       /\ sends (exec send w_idle) = sends w_idle
       /\ telegram_sent r = false /\ email_sent r = false
       /\ Forall (fun entry => startswith entry TELEGRAM_ERROR = false) (errors r).
Proof.
  cbn zeta. split; [by right|].
  destruct (skipped_transmission_is_silent manager T_collaborate alice_info None
              (u "user_question") w_idle (or_intror eq_refl))
    as (r & Hr & Hs & Ht & He & Herr & _).
  by exists r.
Defined.
